(** * differential: value/derivative pairs and their combinators

    A shallow embedding of [src/differential/differentiable.py] and of the
    constructors of [src/differential/functions.py] ([Sin] and [Cos] over
    [math.sin] and [math.cos] taken as variables).

    - Python floats are IEEE 754 binary64 numbers: the kernel's primitive
      floats.  [+], [-], [*] and unary [-] on floats never raise; [/] raises
      ZeroDivisionError on a zero divisor; [math.sqrt] raises ValueError on a
      negative argument.  [float ** int] is computed by the platform's C
      library, whose rounding is not fixed: it is a field of the host
      interface [Host].
    - A mapping ([value], [derivative]) is any Python callable: it may raise
      and it may have side effects.  Computations therefore live in a state
      and exception monad over the host's [World].
    - The right-hand operand of an arithmetic operator is a dynamically typed
      Python object ([operand]); the dispatch dicts are keyed by its exact
      runtime type.
    - No code of the module assigns a field of an instance after its
      construction: instances are values.

    The spec's DispatchError is Python's KeyError, its DivisionError is
    ZeroDivisionError and its DomainError is ValueError (the names the tests
    expect). *)

From Stdlib Require Import Floats ZArith List String Bool.
Import ListNotations.

(** ** Host: exceptions, runtime types, state *)

Inductive py_type : Type :=
| t_float
| t_int
| t_str
| t_NoneType
| t_Differentiable.

Inductive exn : Type :=
| KeyError (key : py_type)
| AttributeError (attr : string)
| TypeError
| ZeroDivisionError
| ValueError
| OverflowError
| Raised (name : string).

Class Host : Type := {
  World : Type;
  float_pow : float -> Z -> exn + float
}.

Section Embedding.

Context `{Host}.

(** A computation: from a world to a new world and either a raised
    exception or a result. *)
Definition M (A : Type) : Type := World -> World * (exn + A).

Definition ret {A} (a : A) : M A := fun w => (w, inr a).

Definition raise {A} (e : exn) : M A := fun w => (w, inl e).

Definition lift {A} (r : exn + A) : M A := fun w => (w, r).

Definition bind {A B} (m : M A) (k : A -> M B) : M B :=
  fun w =>
    match m w with
    | (w', inr a) => k a w'
    | (w', inl e) => (w', inl e)
    end.

Notation "x <- m ;; k" := (bind m (fun x => k))
  (at level 61, m at next level, right associativity).

(** [returns m w a]: run in world [w], [m] returns [a] and leaves the world
    as it was. *)
Definition returns {A} (m : M A) (w : World) (a : A) : Prop := m w = (w, inr a).

(** ** Host arithmetic on floats *)

(** [a / b] on floats (CPython's [float_div]). *)
Definition float_truediv (a b : float) : M float :=
  if (b =? 0)%float then raise ZeroDivisionError else ret (a / b)%float.

(** [math.sqrt]. *)
Definition math_sqrt (v : float) : M float :=
  if (v <? 0)%float then raise ValueError else ret (sqrt v).

(** ** differentiable.py *)

(** [@dataclass class Differentiable(_Visitable)]. *)
Record Differentiable : Type := {
  value : float -> M float;
  derivative : float -> M float
}.

(** What an operator may receive as its other operand. *)
Inductive operand : Type :=
| py_float (c : float)
| py_int (n : Z)
| py_str (s : string)
| py_None
| py_Differentiable (g : Differentiable).

(** [type(other)]. *)
Definition type_ (other : operand) : py_type :=
  match other with
  | py_float _ => t_float
  | py_int _ => t_int
  | py_str _ => t_str
  | py_None => t_NoneType
  | py_Differentiable _ => t_Differentiable
  end.

(** [other.value] and [other.derivative]: only a Differentiable has these
    attributes. *)
Definition getattr_value (other : operand) : M (float -> M float) :=
  match other with
  | py_Differentiable g => ret (value g)
  | _ => raise (AttributeError "value")
  end.

Definition getattr_derivative (other : operand) : M (float -> M float) :=
  match other with
  | py_Differentiable g => ret (derivative g)
  | _ => raise (AttributeError "derivative")
  end.

(** [self.other.value(x)] and [self.other.derivative(x)]. *)
Definition other_value (other : operand) (x : float) : M float :=
  m <- getattr_value other ;; m x.

Definition other_derivative (other : operand) (x : float) : M float :=
  m <- getattr_derivative other ;; m x.

(** The visitor classes, each with the field its [__init__] stores.  The
    constant visitors are only ever instantiated on a float (the dispatch
    dicts guarantee it); the other ones keep whatever operand they were
    given. *)
Inductive visitor : Type :=
| _AddConstant (constant : float)
| _AddDifferentiable (other : operand)
| _SubConstant (constant : float)
| _RSubConstant (constant : float)
| _SubDifferentiable (other : operand)
| _ScaleDifferentiable (scaling : float)
| _MultiplyDifferentiable (other : operand)
| _TrueDivDifferentiable (other : operand).

(** The [visit] methods.  Operands of an arithmetic expression are evaluated
    left to right. *)
Definition visit (self : visitor) (one : Differentiable) : Differentiable :=
  match self with
  | _AddConstant constant =>
      {| value := fun x => a <- value one x ;; ret (a + constant)%float;
         derivative := derivative one |}
  | _AddDifferentiable other =>
      {| value := fun x =>
           a <- value one x ;; b <- other_value other x ;; ret (a + b)%float;
         derivative := fun x =>
           a' <- derivative one x ;; b' <- other_derivative other x ;;
           ret (a' + b')%float |}
  | _SubConstant constant =>
      {| value := fun x => a <- value one x ;; ret (a - constant)%float;
         derivative := derivative one |}
  | _RSubConstant constant =>
      {| value := fun x => a <- value one x ;; ret (constant - a)%float;
         derivative := fun x => a' <- derivative one x ;; ret (- a')%float |}
  | _SubDifferentiable other =>
      {| value := fun x =>
           a <- value one x ;; b <- other_value other x ;; ret (a - b)%float;
         derivative := fun x =>
           a' <- derivative one x ;; b' <- other_derivative other x ;;
           ret (a' - b')%float |}
  | _ScaleDifferentiable scaling =>
      {| value := fun x => a <- value one x ;; ret (scaling * a)%float;
         derivative := fun x => a' <- derivative one x ;; ret (scaling * a')%float |}
  | _MultiplyDifferentiable other =>
      {| value := fun x =>
           b <- other_value other x ;; a <- value one x ;; ret (b * a)%float;
         derivative := fun x =>
           b' <- other_derivative other x ;; a <- value one x ;;
           a' <- derivative one x ;; b <- other_value other x ;;
           ret (b' * a + a' * b)%float |}
  | _TrueDivDifferentiable other =>
      {| value := fun x =>
           a <- value one x ;; b <- other_value other x ;; float_truediv a b;
         derivative := fun x =>
           a' <- derivative one x ;; b <- other_value other x ;;
           b' <- other_derivative other x ;; a <- value one x ;;
           b2 <- other_value other x ;; p <- lift (float_pow b2 2) ;;
           float_truediv (a' * b - b' * a)%float p |}
  end.

(** [_Visitable.__call__]. *)
Definition __call__ (self : Differentiable) (visitor : visitor) : Differentiable :=
  visit visitor self.

(** An entry of a dispatch dict: [float: cls] or [Differentiable: cls]. *)
Inductive entry : Type :=
| float_ (cls : float -> visitor)
| Differentiable_ (cls : operand -> visitor).

Definition add_dispatch : list entry :=
  [float_ _AddConstant; Differentiable_ _AddDifferentiable].

Definition mul_dispatch : list entry :=
  [float_ _ScaleDifferentiable; Differentiable_ _MultiplyDifferentiable].

Definition sub_dispatch : list entry :=
  [float_ _SubConstant; Differentiable_ _SubDifferentiable].

Definition rsub_dispatch : list entry :=
  [float_ _RSubConstant; Differentiable_ _SubDifferentiable].

(** [d[type(other)](other)]: the entry whose key is the exact runtime type
    of [other], instantiated on [other]; KeyError when there is none. *)
Fixpoint dispatch (d : list entry) (other : operand) : exn + visitor :=
  match d with
  | [] => inl (KeyError (type_ other))
  | float_ cls :: d' =>
      match other with
      | py_float c => inr (cls c)
      | _ => dispatch d' other
      end
  | Differentiable_ cls :: d' =>
      match other with
      | py_Differentiable _ => inr (cls other)
      | _ => dispatch d' other
      end
  end.

Definition _add_operator (self : Differentiable) (other : operand) : M Differentiable :=
  v <- lift (dispatch add_dispatch other) ;; ret (__call__ self v).

Definition _sub_operator (self : Differentiable) (other : operand) : M Differentiable :=
  v <- lift (dispatch sub_dispatch other) ;; ret (__call__ self v).

Definition _rsub_operator (self : Differentiable) (other : operand) : M Differentiable :=
  v <- lift (dispatch rsub_dispatch other) ;; ret (__call__ self v).

Definition _mul_operator (self : Differentiable) (other : operand) : M Differentiable :=
  v <- lift (dispatch mul_dispatch other) ;; ret (__call__ self v).

Definition _truediv_operator (self : Differentiable) (other : operand) : M Differentiable :=
  ret (__call__ self (_TrueDivDifferentiable other)).

(** The arithmetic hooks assigned to the class at the end of the module.
    No [__rtruediv__] is assigned. *)
Inductive special_method : Type :=
| __add__ | __radd__
| __sub__ | __rsub__
| __mul__ | __rmul__
| __truediv__ | __rtruediv__.

Definition Differentiable_method (name : special_method)
  : option (Differentiable -> operand -> M Differentiable) :=
  match name with
  | __add__ => Some _add_operator
  | __radd__ => Some _add_operator
  | __sub__ => Some _sub_operator
  | __rsub__ => Some _rsub_operator
  | __mul__ => Some _mul_operator
  | __rmul__ => Some _mul_operator
  | __truediv__ => Some _truediv_operator
  | __rtruediv__ => None
  end.

(** ** The host's binary operator protocol

    For [lhs op rhs] Python first tries the hook [__op__] of [type(lhs)];
    when that hook is missing or declines, and the types differ, it tries the
    reflected hook [__rop__] of [type(rhs)]; when neither applies it raises
    TypeError. *)
Inductive operator : Type := Add | Sub | Mult | Div.

Definition hook (op : operator) : special_method :=
  match op with
  | Add => __add__
  | Sub => __sub__
  | Mult => __mul__
  | Div => __truediv__
  end.

Definition reflected_hook (op : operator) : special_method :=
  match op with
  | Add => __radd__
  | Sub => __rsub__
  | Mult => __rmul__
  | Div => __rtruediv__
  end.

(** [f op other] with [f] a Differentiable.  The hooks of Differentiable
    never decline. *)
Definition binary_op (op : operator) (f : Differentiable) (other : operand)
  : M Differentiable :=
  match Differentiable_method (hook op) with
  | Some method => method f other
  | None => raise TypeError
  end.

(** [c op f] with [f] a Differentiable.  When [c] is a float, an int, a str
    or None, its own type has no hook that accepts a Differentiable, so the
    reflected hook of Differentiable is called with [f] as receiver. *)
Definition reflected_binary_op (op : operator) (c : operand) (f : Differentiable)
  : M Differentiable :=
  match c with
  | py_Differentiable g => binary_op op g (py_Differentiable f)
  | _ =>
      match Differentiable_method (reflected_hook op) with
      | Some method => method f c
      | None => raise TypeError
      end
  end.

(** The five combinators of the module, by name. *)
Inductive combinator : Type := add | sub | rsub | mul | truediv.

Definition combine (k : combinator) : Differentiable -> operand -> M Differentiable :=
  match k with
  | add => _add_operator
  | sub => _sub_operator
  | rsub => _rsub_operator
  | mul => _mul_operator
  | truediv => _truediv_operator
  end.

(** The runtime types for which the dispatch dicts have an entry. *)
Definition registered (t : py_type) : bool :=
  match t with
  | t_float | t_Differentiable => true
  | _ => false
  end.

(** ** functions.py *)

Definition Sqrt (f : Differentiable) : Differentiable :=
  {| value := fun x => v <- value f x ;; math_sqrt v;
     derivative := fun x =>
       d <- derivative f x ;; v <- value f x ;; s <- math_sqrt v ;;
       float_truediv (0.5 * d)%float s |}.

(** [Constant].  The derivative is the literal [0], an int that float
    arithmetic reads as the float zero; at the mapping's declared result type
    [float] it is that zero.  The mappings of this development return
    floats, so two things are not represented: that the result is an int
    object, and that the negation of the int [0] is [0] where the negation of
    the float zero is [-0.0] (only [_RSubConstant] negates a derivative; the
    two results are equal under [==]). *)
Definition Constant (k : float) : Differentiable :=
  {| value := fun _ => ret k;
     derivative := fun _ => ret 0%float |}.

Definition Linear (k : float) : Differentiable :=
  {| value := fun x => ret (k * x)%float;
     derivative := fun _ => ret k |}.

(** The function of [test_sqrt_derivative_raises_when_f_is_zero]:
    [Differentiable(value=lambda x: x * x, derivative=lambda x: 2 * x)]. *)
Definition square : Differentiable :=
  {| value := fun x => ret (x * x)%float;
     derivative := fun x => ret (2 * x)%float |}.

End Embedding.

Notation "x <- m ;; k" := (bind m (fun x => k))
  (at level 61, m at next level, right associativity).

(** ** Two hosts to run the embedding on *)

(** A power function for the sample hosts: repeated multiplication, with
    CPython's OverflowError when a finite base gives an infinite result. *)
Definition pow_by_mul (x : float) (n : Z) : exn + float :=
  let r := Z.iter n (PrimFloat.mul x) 1%float in
  if is_infinity r && is_finite x then inl OverflowError else inr r.

(** A host without observable state. *)
Definition stateless : Host := {| World := unit; float_pow := pow_by_mul |}.

(** A host whose world is the log of the mapping calls made so far, most
    recent first. *)
Definition logging : Host := {| World := list string; float_pow := pow_by_mul |}.

(** [logged name d]: [d] with every call of a mapping recorded in the log. *)
Definition log_call (name : string) (m : float -> @M logging float)
  : float -> @M logging float :=
  fun x w => m x (name :: w).

Definition logged (name : string) (d : @Differentiable logging) : @Differentiable logging :=
  {| value := log_call (name ++ ".value") (value d);
     derivative := log_call (name ++ ".derivative") (derivative d) |}.

(** A Differentiable whose mappings raise at every point. *)
Definition failing (H : Host) : @Differentiable H :=
  {| value := fun _ => raise (Raised "value");
     derivative := fun _ => raise (Raised "derivative") |}.

(** ** functions.py: Sin and Cos

    [math.sin] and [math.cos] are the platform's C library functions (they
    raise ValueError on an infinite argument): the two are variables of the
    section. *)

Section Trigonometry.

Context `{Host}.

Variables math_sin math_cos : float -> exn + float.

Definition Cos (f : Differentiable) : Differentiable :=
  {| value := fun x => v <- value f x ;; lift (math_cos v);
     derivative := fun x =>
       v <- value f x ;; s <- lift (math_sin v) ;; d <- derivative f x ;;
       ret (- s * d)%float |}.

Definition Sin (f : Differentiable) : Differentiable :=
  {| value := fun x => v <- value f x ;; lift (math_sin v);
     derivative := fun x =>
       v <- value f x ;; c <- lift (math_cos v) ;; d <- derivative f x ;;
       ret (c * d)%float |}.

End Trigonometry.

(** Stand-ins for the C library's [sin] and [cos] in the examples: Taylor
    polynomials, with ValueError on an infinite argument. *)
Definition taylor_sin (v : float) : exn + float :=
  if is_infinity v then inl ValueError else inr (v - v * v * v / 6)%float.

Definition taylor_cos (v : float) : exn + float :=
  if is_infinity v then inl ValueError else inr (1 - v * v / 2)%float.

(** The correctly rounded square with CPython's range check: what [x ** 2]
    is for a float [x] on a host whose C library rounds [pow] correctly.
    CPython raises OverflowError when a finite base gives an infinite
    result; a result that underflows is returned as it is. *)
Definition checked_square (x : float) : exn + float :=
  let r := (x * x)%float in
  if is_infinity r && is_finite x then inl OverflowError else inr r.

(** * Properties *)

(** ** Facts about binary64 arithmetic *)

Lemma SFmul_comm (p e : Z) (x y : spec_float) : SFmul p e x y = SFmul p e y x.
Proof.
  destruct x as [sx|sx| |sx mx ex], y as [sy|sy| |sy my ey]; cbn;
    rewrite ?(xorb_comm sx sy); try reflexivity.
  now rewrite (Pos.mul_comm mx my), (Z.add_comm ex ey).
Qed.

Lemma float_mul_comm (a b : float) : (a * b)%float = (b * a)%float.
Proof.
  apply Prim2SF_inj. rewrite !mul_spec. apply SFmul_comm.
Qed.

Lemma zero_is_zero_false : Prim2SF 0%float = S754_zero false.
Proof. reflexivity. Qed.

Lemma eqb_zero_inv (v : float) :
  (v =? 0)%float = true -> exists s, Prim2SF v = S754_zero s.
Proof.
  rewrite FloatAxioms.eqb_spec, zero_is_zero_false.
  destruct (Prim2SF v) as [s|s| |s m e]; cbn; try discriminate.
  - intros _. now exists s.
  - destruct s; discriminate.
  - destruct s; discriminate.
Qed.

Lemma zero_not_negative (v : float) :
  (v =? 0)%float = true -> (v <? 0)%float = false.
Proof.
  intros [s Hs]%eqb_zero_inv.
  now rewrite ltb_spec, zero_is_zero_false, Hs.
Qed.

Lemma sqrt_of_zero (v : float) :
  (v =? 0)%float = true -> (sqrt v =? 0)%float = true.
Proof.
  intros [s Hs]%eqb_zero_inv.
  now rewrite FloatAxioms.eqb_spec, sqrt_spec, zero_is_zero_false, Hs.
Qed.

Lemma nonnegative_not_negative (v : float) :
  (0 <=? v)%float = true -> (v <? 0)%float = false.
Proof.
  rewrite leb_spec, ltb_spec, zero_is_zero_false.
  destruct (Prim2SF v) as [s|s| |s m e]; cbn; try reflexivity;
    destruct s; cbn; congruence.
Qed.

Section Properties.

Context `{Host}.

(** ** Running computations *)

Lemma bind_run {A B} (m : M A) (k : A -> M B) (w w' : World) (a : A) :
  m w = (w', inr a) -> bind m k w = k a w'.
Proof. intros Hm. unfold bind. now rewrite Hm. Qed.

Lemma bind_fail {A B} (m : M A) (k : A -> M B) (w w' : World) (e : exn) :
  m w = (w', inl e) -> bind m k w = (w', inl e).
Proof. intros Hm. unfold bind. now rewrite Hm. Qed.

Lemma bind_lift {A B} (r : exn + A) (k : A -> M B) (w : World) :
  bind (lift r) k w = match r with inl e => (w, inl e) | inr a => k a w end.
Proof. unfold bind, lift. now destruct r. Qed.

Lemma other_value_Differentiable (g : Differentiable) (x : float) (w : World) :
  other_value (py_Differentiable g) x w = value g x w.
Proof. unfold other_value, getattr_value, bind, ret. now destruct (value g x w). Qed.

Lemma other_derivative_Differentiable (g : Differentiable) (x : float) (w : World) :
  other_derivative (py_Differentiable g) x w = derivative g x w.
Proof.
  unfold other_derivative, getattr_derivative, bind, ret.
  now destruct (derivative g x w).
Qed.

(** ** Host division *)

Lemma float_truediv_zero (a b : float) (w : World) :
  (b =? 0)%float = true -> float_truediv a b w = (w, inl ZeroDivisionError).
Proof. intros Hb. unfold float_truediv. now rewrite Hb. Qed.

Lemma float_truediv_nonzero (a b : float) (w : World) :
  (b =? 0)%float = false -> float_truediv a b w = (w, inr (a / b)%float).
Proof. intros Hb. unfold float_truediv. now rewrite Hb. Qed.

Lemma float_truediv_raises_iff (a b : float) (w : World) :
  float_truediv a b w = (w, inl ZeroDivisionError) <-> (b =? 0)%float = true.
Proof.
  split; [|apply float_truediv_zero].
  unfold float_truediv. destruct (b =? 0)%float; [reflexivity | discriminate].
Qed.

End Properties.

(** [call H]: the next call of the computation is the one whose outcome [H]
    gives. *)
Ltac call H :=
  first
    [ erewrite bind_run by
        first [ exact H
              | rewrite other_value_Differentiable; exact H
              | rewrite other_derivative_Differentiable; exact H ]
    | erewrite bind_fail by
        first [ exact H
              | rewrite other_value_Differentiable; exact H
              | rewrite other_derivative_Differentiable; exact H ] ].

Ltac open_composite :=
  unfold binary_op, reflected_binary_op, combine,
    _add_operator, _sub_operator, _rsub_operator, _mul_operator,
    _truediv_operator, __call__;
  cbn [value derivative visit Sqrt Constant Linear dispatch
       add_dispatch sub_dispatch rsub_dispatch mul_dispatch
       Differentiable_method hook reflected_hook].

Section Claims.

Context `{Host}.

(** ** The derivative of a quotient *)

Lemma TrueDiv_derivative_run (f g : Differentiable) (x : float) (w : World)
    (a a' b b' : float) :
  returns (value f x) w a -> returns (derivative f x) w a' ->
  returns (value g x) w b -> returns (derivative g x) w b' ->
  derivative (__call__ f (_TrueDivDifferentiable (py_Differentiable g))) x w =
    (p <- lift (float_pow b 2) ;; float_truediv (a' * b - b' * a)%float p) w.
Proof.
  unfold returns. intros Hf Hf' Hg Hg'. open_composite.
  call Hf'. call Hg. call Hg'. call Hf. call Hg. reflexivity.
Qed.

(** ** C4 *)

(** C4, amended. Where the four mappings of [f] and [g] return and [g]'s
    value is not zero, [f / g] is a composite whose value is [f(x) / g(x)].
    Its derivative is the host's evaluation of
    [(f'(x) * g(x) - g'(x) * f(x)) / g(x) ** 2]: the quotient by [p] when
    the host computes [g(x) ** 2] as a nonzero float [p], ZeroDivisionError
    when it computes zero, and the host's own exception when [**] raises.
    Where [**] is the correctly rounded square, that is OverflowError when
    the square of [g(x)] overflows, ZeroDivisionError when it underflows to
    zero, and the quotient by [g(x) * g(x)] otherwise. *)
Theorem quotient_rule_as_computed (f g : Differentiable) (x : float) (w : World)
    (a a' b b' : float) :
  returns (value f x) w a -> returns (derivative f x) w a' ->
  returns (value g x) w b -> returns (derivative g x) w b' ->
  (b =? 0)%float = false ->
  exists h,
    (forall w0, binary_op Div f (py_Differentiable g) w0 = (w0, inr h)) /\
    value h x w = (w, inr (a / b)%float) /\
    derivative h x w =
      (w, match float_pow b 2 with
          | inl e => inl e
          | inr p =>
              if (p =? 0)%float then inl ZeroDivisionError
              else inr ((a' * b - b' * a) / p)%float
          end) /\
    (float_pow b 2 = checked_square b ->
       derivative h x w =
         (w, if is_infinity (b * b) && is_finite b then inl OverflowError
             else if (b * b =? 0)%float then inl ZeroDivisionError
             else inr ((a' * b - b' * a) / (b * b))%float)).
Proof.
  intros Hf Hf' Hg Hg' Hb.
  exists (__call__ f (_TrueDivDifferentiable (py_Differentiable g))).
  assert (Hd : derivative (__call__ f (_TrueDivDifferentiable (py_Differentiable g))) x w =
      (w, match float_pow b 2 with
          | inl e => inl e
          | inr p =>
              if (p =? 0)%float then inl ZeroDivisionError
              else inr ((a' * b - b' * a) / p)%float
          end)).
  { rewrite (TrueDiv_derivative_run f g x w a a' b b' Hf Hf' Hg Hg'), bind_lift.
    destruct (float_pow b 2) as [e|p]; [reflexivity|].
    unfold float_truediv. now destruct (p =? 0)%float. }
  unfold returns in Hf, Hg.
  split; [reflexivity|]. split; [|split].
  - open_composite. call Hf. call Hg. now apply float_truediv_nonzero.
  - exact Hd.
  - intros Hpow. rewrite Hd, Hpow. unfold checked_square. cbv zeta.
    now destruct (is_infinity (b * b) && is_finite b).
Qed.

(** ** C5 *)

Lemma Sqrt_derivative_run (f : Differentiable) (x : float) (w : World) (v d : float) :
  returns (value f x) w v -> returns (derivative f x) w d ->
  derivative (Sqrt f) x w =
    if (v <? 0)%float then (w, inl ValueError)
    else float_truediv (0.5 * d)%float (sqrt v) w.
Proof.
  unfold returns. intros Hv Hd. open_composite. call Hd. call Hv.
  unfold math_sqrt. now destruct (v <? 0)%float.
Qed.

(** C5. [(f / g).value(x)] raises ZeroDivisionError exactly when [g(x) == 0],
    and [(f / g).derivative(x)] exactly when its denominator [g(x) ** 2], as
    the host computes it, is zero; [Sqrt(f).derivative(x)] raises
    ZeroDivisionError exactly when its denominator [math.sqrt(f.value(x))] is
    computed and is zero, which is the case when [f.value(x) == 0], a point
    where [Sqrt(f).value(x)] returns zero; and
    [(Linear(1.0) / Constant(0.0)).value(1.0)] raises it. *)
Theorem division_error_on_zero_denominator :
  (forall (f g : Differentiable) (x : float) (w : World) (a b : float),
     returns (value f x) w a -> returns (value g x) w b ->
     exists h,
       (forall w0, binary_op Div f (py_Differentiable g) w0 = (w0, inr h)) /\
       (value h x w = (w, inl ZeroDivisionError) <-> (b =? 0)%float = true)) /\
  (forall (f g : Differentiable) (x : float) (w : World) (a a' b b' p : float),
     returns (value f x) w a -> returns (derivative f x) w a' ->
     returns (value g x) w b -> returns (derivative g x) w b' ->
     float_pow b 2 = inr p ->
     exists h,
       (forall w0, binary_op Div f (py_Differentiable g) w0 = (w0, inr h)) /\
       (derivative h x w = (w, inl ZeroDivisionError) <-> (p =? 0)%float = true)) /\
  (forall (f : Differentiable) (x : float) (w : World) (v d : float),
     returns (value f x) w v -> returns (derivative f x) w d ->
     (derivative (Sqrt f) x w = (w, inl ZeroDivisionError) <->
        (v <? 0)%float = false /\ (sqrt v =? 0)%float = true) /\
     ((v =? 0)%float = true ->
        derivative (Sqrt f) x w = (w, inl ZeroDivisionError) /\
        exists r, value (Sqrt f) x w = (w, inr r) /\ (r =? 0)%float = true)) /\
  (exists h,
     (forall w0, binary_op Div (Linear 1) (py_Differentiable (Constant 0)) w0
                 = (w0, inr h)) /\
     forall w, value h 1 w = (w, inl ZeroDivisionError)).
Proof.
  split; [|split; [|split]].
  - unfold returns. intros f g x w a b Hf Hg.
    exists (__call__ f (_TrueDivDifferentiable (py_Differentiable g))).
    split; [reflexivity|]. open_composite. call Hf. call Hg.
    apply float_truediv_raises_iff.
  - intros f g x w a a' b b' p Hf Hf' Hg Hg' Hp.
    exists (__call__ f (_TrueDivDifferentiable (py_Differentiable g))).
    split; [reflexivity|].
    rewrite (TrueDiv_derivative_run f g x w a a' b b' Hf Hf' Hg Hg'), bind_lift, Hp.
    apply float_truediv_raises_iff.
  - intros f x w v d Hv Hd. erewrite Sqrt_derivative_run; [|exact Hv|exact Hd]. split.
    + destruct (v <? 0)%float.
      * split; [discriminate | intros [? _]; discriminate].
      * rewrite float_truediv_raises_iff. tauto.
    + intros Hz. pose proof (zero_not_negative v Hz) as Hnn. rewrite Hnn. split.
      * apply float_truediv_zero, sqrt_of_zero, Hz.
      * exists (sqrt v). split; [|apply sqrt_of_zero, Hz].
        unfold returns in Hv. open_composite. call Hv.
        unfold math_sqrt. now rewrite Hnn.
  - eexists. split; [reflexivity|]. intros w. reflexivity.
Qed.

(** ** C6 *)

(** C6. [f * g] is a composite whose value is [f(x) * g(x)] and whose
    derivative is [g'(x) * f(x) + f'(x) * g(x)], the mappings being called in
    this order: [g.derivative], [f.value], [f.derivative], [g.value] (for the
    value: [g.value], then [f.value]).  The worlds are threaded through the
    calls in that order. *)
Theorem product_rule_in_order (f g : Differentiable) (x : float) :
  exists h,
    (forall w0, binary_op Mult f (py_Differentiable g) w0 = (w0, inr h)) /\
    (forall (w0 w1 w2 : World) (a b : float),
       value g x w0 = (w1, inr b) -> value f x w1 = (w2, inr a) ->
       value h x w0 = (w2, inr (a * b)%float)) /\
    (forall (w0 w1 w2 w3 w4 : World) (a a' b b' : float),
       derivative g x w0 = (w1, inr b') -> value f x w1 = (w2, inr a) ->
       derivative f x w2 = (w3, inr a') -> value g x w3 = (w4, inr b) ->
       derivative h x w0 = (w4, inr (b' * a + a' * b)%float)).
Proof.
  exists (__call__ f (_MultiplyDifferentiable (py_Differentiable g))).
  split; [reflexivity|]. split.
  - intros w0 w1 w2 a b Hg Hf. open_composite. call Hg. call Hf.
    now rewrite (float_mul_comm a b).
  - intros w0 w1 w2 w3 w4 a a' b b' Hg' Hf Hf' Hg. open_composite.
    call Hg'. call Hf. call Hf'. call Hg. reflexivity.
Qed.

(** ** C7 *)

(** C7. Where [f.value(x)] returns [v], [Sqrt(f).value(x)] raises ValueError
    if [v < 0] and returns [sqrt v] if [0 <= v]. *)
Theorem Sqrt_value_domain (f : Differentiable) (x : float) (w w' : World) (v : float) :
  value f x w = (w', inr v) ->
  ((v <? 0)%float = true -> value (Sqrt f) x w = (w', inl ValueError)) /\
  ((0 <=? v)%float = true -> value (Sqrt f) x w = (w', inr (sqrt v))).
Proof.
  intros Hv. split; intros Hsign; open_composite; call Hv; unfold math_sqrt.
  - now rewrite Hsign.
  - apply nonnegative_not_negative in Hsign. now rewrite Hsign.
Qed.

(** ** C8 *)

(** C8. For a float [c], [f + c] and [c + f] are the same composite, and so
    are [f * c] and [c * f]; where [f]'s mappings return, the sum has value
    [f(x) + c] and derivative [f'(x)], the product value [c * f(x)] and
    derivative [c * f'(x)].  More generally [k + f] has the outcome of
    [f + k], and [k * f] that of [f * k], for every [k] that is not itself a
    Differentiable. *)
Theorem scalar_on_the_left_commutes (f : Differentiable) (c : float) :
  (forall k w, type_ k <> t_Differentiable ->
     reflected_binary_op Add k f w = binary_op Add f k w /\
     reflected_binary_op Mult k f w = binary_op Mult f k w) /\
  exists s p,
    (forall w0, binary_op Add f (py_float c) w0 = (w0, inr s) /\
                reflected_binary_op Add (py_float c) f w0 = (w0, inr s)) /\
    (forall w0, binary_op Mult f (py_float c) w0 = (w0, inr p) /\
                reflected_binary_op Mult (py_float c) f w0 = (w0, inr p)) /\
    (forall (x : float) (w w' : World) (a : float),
       value f x w = (w', inr a) ->
       value s x w = (w', inr (a + c)%float) /\
       value p x w = (w', inr (c * a)%float)) /\
    (forall (x : float) (w w' : World) (a' : float),
       derivative f x w = (w', inr a') ->
       derivative s x w = (w', inr a') /\
       derivative p x w = (w', inr (c * a')%float)).
Proof.
  split.
  { intros k w Hk. destruct k; cbn in Hk; try (split; reflexivity). congruence. }
  exists (__call__ f (_AddConstant c)), (__call__ f (_ScaleDifferentiable c)).
  split; [|split; [|split]].
  - intros w0. split; reflexivity.
  - intros w0. split; reflexivity.
  - intros x w w' a Hf. split; open_composite; call Hf; reflexivity.
  - intros x w w' a' Hf'. split; open_composite.
    + exact Hf'.
    + call Hf'. reflexivity.
Qed.

(** ** C9 *)

(** C9, amended. For a float [c], where [f]'s mappings return, [c - f] has
    value [c - f(x)] and derivative [- f'(x)], and [f - c] has value
    [f(x) - c] and derivative [f'(x)].  For an int [n], both [n - f] and
    [f - n] raise KeyError where they are written. *)
Theorem subtraction_sign_asymmetry_of_floats (f : Differentiable) :
  (forall c : float, exists r s,
     (forall w0, reflected_binary_op Sub (py_float c) f w0 = (w0, inr r)) /\
     (forall w0, binary_op Sub f (py_float c) w0 = (w0, inr s)) /\
     (forall (x : float) (w w' : World) (a : float),
        value f x w = (w', inr a) ->
        value r x w = (w', inr (c - a)%float) /\
        value s x w = (w', inr (a - c)%float)) /\
     (forall (x : float) (w w' : World) (a' : float),
        derivative f x w = (w', inr a') ->
        derivative r x w = (w', inr (- a')%float) /\
        derivative s x w = (w', inr a'))) /\
  (forall (n : Z) (w : World),
     reflected_binary_op Sub (py_int n) f w = (w, inl (KeyError t_int)) /\
     binary_op Sub f (py_int n) w = (w, inl (KeyError t_int))).
Proof.
  split.
  - intros c.
    exists (__call__ f (_RSubConstant c)), (__call__ f (_SubConstant c)).
    split; [reflexivity|]. split; [reflexivity|]. split.
    + intros x w w' a Hf. split; open_composite; call Hf; reflexivity.
    + intros x w w' a' Hf'. split; open_composite.
      * call Hf'. reflexivity.
      * exact Hf'.
  - intros n w. split; reflexivity.
Qed.

(** ** C10 *)

(** C10. The class has no [__rtruediv__]: for a float or int [c], [c / f]
    raises TypeError where it is written and builds nothing, whereas
    [Constant(k) / f] builds a composite. *)
Theorem no_reflected_division (f : Differentiable) (c : operand) (w : World) :
  type_ c = t_float \/ type_ c = t_int ->
  Differentiable_method __rtruediv__ = None /\
  reflected_binary_op Div c f w = (w, inl TypeError) /\
  (forall k, exists h,
     binary_op Div (Constant k) (py_Differentiable f) w = (w, inr h)).
Proof.
  intros Hc. split; [reflexivity|]. split.
  - destruct c; cbn in Hc; try reflexivity; destruct Hc; discriminate.
  - intros k. eexists. reflexivity.
Qed.

(** ** C1 *)

(** C1, amended. For a float or int [c], [f / c] raises nothing where it is
    written: it returns a composite without consulting any dispatch dict.
    The failure is deferred: each evaluation of the composite's value or
    derivative raises, and once [f]'s own mapping has returned the exception
    is the AttributeError of the lookup of [value] on [c]. *)
Theorem division_by_scalar_is_deferred (f : Differentiable) (c : operand) :
  type_ c = t_float \/ type_ c = t_int ->
  exists h,
    (forall w, binary_op Div f c w = (w, inr h)) /\
    (forall x w, exists w' e, value h x w = (w', inl e)) /\
    (forall x w, exists w' e, derivative h x w = (w', inl e)) /\
    (forall x w w' a, value f x w = (w', inr a) ->
       value h x w = (w', inl (AttributeError "value"))) /\
    (forall x w w' a', derivative f x w = (w', inr a') ->
       derivative h x w = (w', inl (AttributeError "value"))).
Proof.
  intros Hc. exists (__call__ f (_TrueDivDifferentiable c)).
  assert (Hattr : forall x (k : float -> M float) w,
            bind (other_value c x) k w = (w, inl (AttributeError "value"))).
  { intros x k w. destruct c; cbn in Hc; try reflexivity;
      destruct Hc; discriminate. }
  assert (Hv : forall x w w' a, value f x w = (w', inr a) ->
            value (__call__ f (_TrueDivDifferentiable c)) x w
            = (w', inl (AttributeError "value"))).
  { intros x w w' a Hf. open_composite. call Hf. apply Hattr. }
  assert (Hd : forall x w w' a', derivative f x w = (w', inr a') ->
            derivative (__call__ f (_TrueDivDifferentiable c)) x w
            = (w', inl (AttributeError "value"))).
  { intros x w w' a' Hf'. open_composite. call Hf'. apply Hattr. }
  split; [reflexivity|]. repeat split; try assumption.
  - intros x w. destruct (value f x w) as [w' [e|a]] eqn:Hf.
    + exists w', e. open_composite. now call Hf.
    + exists w', (AttributeError "value"). now apply Hv with a.
  - intros x w. destruct (derivative f x w) as [w' [e|a']] eqn:Hf'.
    + exists w', e. open_composite. now call Hf'.
    + exists w', (AttributeError "value"). now apply Hd with a'.
Qed.

(** ** C2 *)

Lemma dispatch_registered (d : list entry) (other : operand) :
  In d [add_dispatch; sub_dispatch; rsub_dispatch; mul_dispatch] ->
  (registered (type_ other) = true -> exists v, dispatch d other = inr v) /\
  (registered (type_ other) = false -> dispatch d other = inl (KeyError (type_ other))).
Proof.
  intros Hd. cbn in Hd.
  destruct Hd as [<-|[<-|[<-|[<-|[]]]]]; destruct other; cbn;
    split; intros Hr; try discriminate; try reflexivity; eexists; reflexivity.
Qed.

Lemma dispatched_combination (d : list entry) (f : Differentiable)
    (other : operand) (w : World) :
  In d [add_dispatch; sub_dispatch; rsub_dispatch; mul_dispatch] ->
  let run := (v <- lift (dispatch d other) ;; ret (__call__ f v)) w in
  fst run = w /\
  (registered (type_ other) = true -> exists h, run = (w, inr h)) /\
  (registered (type_ other) = false -> run = (w, inl (KeyError (type_ other)))).
Proof.
  intros Hd. cbv zeta. rewrite bind_lift.
  destruct (dispatch_registered d other Hd) as [Hyes Hno].
  destruct (registered (type_ other)).
  - destruct Hyes as [v ->]; [reflexivity|]. split; [reflexivity|].
    split; [intros _; eexists; reflexivity | discriminate].
  - rewrite Hno by reflexivity. split; [reflexivity|].
    split; [discriminate | reflexivity].
Qed.

Ltac via_dict L :=
  let Hw := fresh in
  let Hyes := fresh in
  let Hno := fresh in
  let Hr := fresh in
  destruct L as (Hw & Hyes & Hno); [cbn; tauto|];
  split; [exact Hw|];
  split; [intros [Hr|Hr]; [discriminate | exact (Hyes Hr)] | intros _; exact Hno].

(** C2, amended. No combinator calls a mapping of either operand where the
    combination is written: whatever the mappings do, the world is left as
    it was.  Division never raises there, and the four other combinators
    raise nothing when the other operand is a float or a Differentiable; for
    an operand of any other type they raise KeyError there. *)
Theorem combination_never_evaluates (k : combinator) (f : Differentiable)
    (other : operand) (w : World) :
  fst (combine k f other w) = w /\
  (k = truediv \/ registered (type_ other) = true ->
     exists h, combine k f other w = (w, inr h)) /\
  (k <> truediv -> registered (type_ other) = false ->
     combine k f other w = (w, inl (KeyError (type_ other)))).
Proof.
  destruct k; cbn [combine];
    [ via_dict (dispatched_combination add_dispatch f other w)
    | via_dict (dispatched_combination sub_dispatch f other w)
    | via_dict (dispatched_combination rsub_dispatch f other w)
    | via_dict (dispatched_combination mul_dispatch f other w)
    | ].
  split; [reflexivity|]. split; [intros _; eexists; reflexivity | congruence].
Qed.

(** ** C3 *)

Lemma binary_op_dispatches (op : operator) (f : Differentiable)
    (other : operand) (w : World) :
  op <> Div ->
  exists d,
    In d [add_dispatch; sub_dispatch; rsub_dispatch; mul_dispatch] /\
    binary_op op f other w = (v <- lift (dispatch d other) ;; ret (__call__ f v)) w.
Proof.
  intros Hop.
  destruct op;
    [ exists add_dispatch | exists sub_dispatch | exists mul_dispatch | congruence ];
    (split; [cbn; tauto | reflexivity]).
Qed.

(** C3, amended. Addition, subtraction and multiplication select the
    constant rule for a right-hand operand that is a float: [f + c] has
    value [f(x) + c], [f - c] value [f(x) - c], both with derivative
    [f'(x)], and [f * c] has value [c * f(x)] and derivative [c * f'(x)].
    They raise KeyError exactly for the operands whose runtime type is
    neither float nor Differentiable; an int is one of those. *)
Theorem constant_rule_is_for_floats (f : Differentiable) :
  (forall c : float, exists s d p,
     (forall w, binary_op Add f (py_float c) w = (w, inr s) /\
                binary_op Sub f (py_float c) w = (w, inr d) /\
                binary_op Mult f (py_float c) w = (w, inr p)) /\
     (forall x w w' a, value f x w = (w', inr a) ->
        value s x w = (w', inr (a + c)%float) /\
        value d x w = (w', inr (a - c)%float) /\
        value p x w = (w', inr (c * a)%float)) /\
     (forall x w w' a', derivative f x w = (w', inr a') ->
        derivative s x w = (w', inr a') /\
        derivative d x w = (w', inr a') /\
        derivative p x w = (w', inr (c * a')%float))) /\
  (forall op other w, op <> Div ->
     (binary_op op f other w = (w, inl (KeyError (type_ other))) <->
        registered (type_ other) = false) /\
     (registered (type_ other) = true ->
        exists h, binary_op op f other w = (w, inr h))) /\
  (forall op n w, op <> Div ->
     binary_op op f (py_int n) w = (w, inl (KeyError t_int))).
Proof.
  split; [|split].
  - intros c.
    exists (__call__ f (_AddConstant c)), (__call__ f (_SubConstant c)),
      (__call__ f (_ScaleDifferentiable c)).
    split; [intros w; repeat split|]. split.
    + intros x w w' a Hf. repeat split; open_composite; call Hf; reflexivity.
    + intros x w w' a' Hf'. repeat split; open_composite;
        first [exact Hf' | call Hf'; reflexivity].
  - intros op other w Hop.
    destruct (binary_op_dispatches op f other w Hop) as (d & Hin & ->).
    destruct (dispatched_combination d f other w Hin) as (_ & Hyes & Hno).
    split; [split|].
    + intros Herr. destruct (registered (type_ other)) eqn:Hr; [|reflexivity].
      destruct (Hyes eq_refl) as [h Hh]. congruence.
    + exact Hno.
    + exact Hyes.
  - intros op n w Hop. destruct op; try reflexivity. congruence.
Qed.

End Claims.

(** * The claims at concrete inputs *)

Section Stateless.

#[local] Existing Instance stateless.

(** [f(x) = 6 x] over [g(x) = x * x] at [x = 2]: [12 / 4] and
    [(6 * 4 - 4 * 12) / 16]. *)
Lemma quotient_rule_as_computed_witness :
  float_pow 4%float 2 = checked_square 4 /\
  exists h : Differentiable,
    (forall w0, binary_op Div (Linear 6) (py_Differentiable square) w0
                = (w0, inr h)) /\
    value h 2 tt = (tt, inr 3%float) /\
    derivative h 2 tt = (tt, inr (-1.5)%float).
Proof.
  split; [reflexivity|].
  destruct (@quotient_rule_as_computed stateless (Linear 6) square 2%float tt
              12%float 6%float 4%float 4%float
              eq_refl eq_refl eq_refl eq_refl eq_refl)
    as (h & Hh & Hv & _ & Hd).
  exists h. split; [exact Hh|]. split; [exact Hv|]. exact (Hd eq_refl).
Defined.

(** [Sqrt] of [x * x] at [0] (the value is defined, the derivative is not),
    and [Linear(1.0) / Linear(1.0)] at [0]. *)
Lemma division_error_witness :
  (derivative (Sqrt square) 0 tt = (tt, inl ZeroDivisionError) /\
   exists r, value (Sqrt square) 0 tt = (tt, inr r) /\ (r =? 0)%float = true) /\
  (exists h,
    (forall w0, binary_op Div (Linear 1) (py_Differentiable (Linear 1)) w0
                = (w0, inr h)) /\
    (value h 0 tt = (tt, inl ZeroDivisionError) <-> (0 =? 0)%float = true)) /\
  (exists h,
    (forall w0, binary_op Div (Linear 1) (py_Differentiable (Linear 1)) w0
                = (w0, inr h)) /\
    (derivative h 0 tt = (tt, inl ZeroDivisionError) <-> (0 =? 0)%float = true)).
Proof.
  destruct (@division_error_on_zero_denominator stateless)
    as (Hvalue & Hderivative & HSqrt & _).
  split; [|split].
  - exact (proj2 (HSqrt square 0%float tt 0%float 0%float eq_refl eq_refl) eq_refl).
  - exact (Hvalue (Linear 1) (Linear 1) 0%float tt 0%float 0%float eq_refl eq_refl).
  - exact (Hderivative (Linear 1) (Linear 1) 0%float tt 0%float 1%float 0%float
             1%float 0%float eq_refl eq_refl eq_refl eq_refl eq_refl).
Defined.

(** [Sqrt(Constant(-1.0)).value(0.0)] and [Sqrt(Constant(9.0)).value(2.0)]. *)
Lemma Sqrt_value_domain_witness :
  value (Sqrt (Constant (-1))) 0 tt = (tt, inl ValueError) /\
  value (Sqrt (Constant 9)) 2 tt = (tt, inr 3%float).
Proof.
  split.
  - exact (proj1 (@Sqrt_value_domain stateless (Constant (-1)) 0%float tt tt
                    (-1)%float eq_refl) eq_refl).
  - exact (proj2 (@Sqrt_value_domain stateless (Constant 9) 2%float tt tt
                    9%float eq_refl) eq_refl).
Defined.

(** [5.0 + f] and [f + 5.0], [2.0 * f] and [f * 2.0], for [f(x) = - x] at
    [x = 4]. *)
Lemma scalar_on_the_left_commutes_witness :
  exists s p : Differentiable,
    (binary_op Add (Linear (-1)) (py_float 5) tt = (tt, inr s) /\
     reflected_binary_op Add (py_float 5) (Linear (-1)) tt = (tt, inr s)) /\
    (binary_op Mult (Linear (-1)) (py_float 5) tt = (tt, inr p) /\
     reflected_binary_op Mult (py_float 5) (Linear (-1)) tt = (tt, inr p)) /\
    value s 4 tt = (tt, inr 1%float) /\
    derivative s 4 tt = (tt, inr (-1)%float) /\
    value p 4 tt = (tt, inr (-20)%float) /\
    derivative p 4 tt = (tt, inr (-5)%float).
Proof.
  destruct (@scalar_on_the_left_commutes stateless (Linear (-1)) 5%float)
    as (_ & s & p & Hs & Hp & Hv & Hd).
  exists s, p. split; [apply Hs|]. split; [apply Hp|].
  destruct (Hv 4%float tt tt (-4)%float eq_refl) as [Hvs Hvp].
  destruct (Hd 4%float tt tt (-1)%float eq_refl) as [Hds Hdp].
  repeat split; assumption.
Defined.

(** [10.0 - f] and [f - 10.0] for [f(x) = 2 x] at [x = 1.5]. *)
Lemma subtraction_sign_asymmetry_of_floats_witness :
  exists r s : Differentiable,
    (forall w0, reflected_binary_op Sub (py_float 10) (Linear 2) w0 = (w0, inr r)) /\
    (forall w0, binary_op Sub (Linear 2) (py_float 10) w0 = (w0, inr s)) /\
    value r 1.5 tt = (tt, inr 7%float) /\
    derivative r 1.5 tt = (tt, inr (-2)%float) /\
    value s 1.5 tt = (tt, inr (-7)%float) /\
    derivative s 1.5 tt = (tt, inr 2%float).
Proof.
  destruct (proj1 (@subtraction_sign_asymmetry_of_floats stateless (Linear 2)) 10%float)
    as (r & s & Hr & Hs & Hv & Hd).
  exists r, s. split; [exact Hr|]. split; [exact Hs|].
  destruct (Hv 1.5%float tt tt 3%float eq_refl) as [Hvr Hvs].
  destruct (Hd 1.5%float tt tt 2%float eq_refl) as [Hdr Hds].
  repeat split; assumption.
Defined.

(** [2.0 / f]. *)
Lemma no_reflected_division_witness :
  reflected_binary_op Div (py_float 2) (Linear 1) tt = (tt, inl TypeError).
Proof.
  exact (proj1 (proj2 (@no_reflected_division stateless (Linear 1) (py_float 2) tt
                         (or_introl eq_refl)))).
Defined.

(** [f / 2.0]: a composite is returned, its value raises at [x = 3]. *)
Lemma division_by_scalar_is_deferred_witness :
  exists h : Differentiable,
    binary_op Div (Linear 1) (py_float 2) tt = (tt, inr h) /\
    value h 3 tt = (tt, inl (AttributeError "value")) /\
    derivative h 3 tt = (tt, inl (AttributeError "value")).
Proof.
  destruct (@division_by_scalar_is_deferred stateless (Linear 1) (py_float 2)
              (or_introl eq_refl)) as (h & Hh & _ & _ & Hv & Hd).
  exists h. split; [apply Hh|]. split.
  - apply (Hv 3%float tt tt 3%float). reflexivity.
  - apply (Hd 3%float tt tt 1%float). reflexivity.
Defined.

(** [f + f] for an [f] whose mappings raise at every point, and [f + "2"]. *)
Lemma combination_never_evaluates_witness :
  (exists h, combine add (failing stateless) (py_Differentiable (failing stateless)) tt
             = (tt, inr h)) /\
  combine add (Linear 3) (py_str "2") tt = (tt, inl (KeyError t_str)).
Proof.
  split.
  - exact (proj1 (proj2 (@combination_never_evaluates stateless add
                           (failing stateless)
                           (py_Differentiable (failing stateless)) tt))
             (or_intror eq_refl)).
  - refine (proj2 (proj2 (@combination_never_evaluates stateless add (Linear 3)
                            (py_str "2") tt)) _ eq_refl).
    discriminate.
Defined.

(** [f + 2.0] against [f + 2]. *)
Lemma constant_rule_is_for_floats_witness :
  (exists h, binary_op Add (Linear 3) (py_float 2) tt = (tt, inr h)) /\
  binary_op Add (Linear 3) (py_int 2) tt = (tt, inl (KeyError t_int)).
Proof.
  destruct (@constant_rule_is_for_floats stateless (Linear 3)) as (_ & Hreg & Hint).
  split.
  - apply (Hreg Add (py_float 2) tt); [discriminate | reflexivity].
  - apply (Hint Add 2%Z tt). discriminate.
Defined.

(** ** Where the claims fail as stated *)

(** C1 as stated fails: [Linear(1.0) / 2.0] is not rejected, no KeyError is
    raised and a Differentiable is returned. *)
Lemma division_by_scalar_not_rejected :
  (exists h, binary_op Div (Linear 1) (py_float 2) tt = (tt, inr h)) /\
  ~ (exists k, binary_op Div (Linear 1) (py_float 2) tt = (tt, inl (KeyError k))).
Proof.
  split.
  - eexists. reflexivity.
  - intros [k Hk]. discriminate Hk.
Qed.

(** C2 as stated fails: [Linear(1.0) - "1"] raises KeyError where the
    combination is written. *)
Lemma combination_can_raise :
  combine sub (Linear 1) (py_str "1") tt = (tt, inl (KeyError t_str)) /\
  ~ (exists h, combine sub (Linear 1) (py_str "1") tt = (tt, inr h)).
Proof.
  split.
  - reflexivity.
  - intros [h Hh]. discriminate Hh.
Qed.

(** C3 as stated fails: [Linear(3.0) * 4], with the int [4], does not select
    the constant rule but raises KeyError. *)
Lemma int_operand_rejected :
  binary_op Mult (Linear 3) (py_int 4) tt = (tt, inl (KeyError t_int)) /\
  ~ (exists h, binary_op Mult (Linear 3) (py_int 4) tt = (tt, inr h)).
Proof.
  split.
  - reflexivity.
  - intros [h Hh]. discriminate Hh.
Qed.

(** C4 as stated fails: for [f(x) = g(x) = x] at [x = 2 ** -600] the four
    mappings return and [g(x)] is not zero, yet the derivative of [f / g]
    raises ZeroDivisionError, the square of [g(x)] being zero; at
    [x = 2 ** 600] it raises OverflowError.  At both points [**] is the
    correctly rounded square. *)
Lemma quotient_rule_fails_out_of_range :
  (returns (value (Linear 1) 0x1p-600) tt 0x1p-600%float /\
   returns (derivative (Linear 1) 0x1p-600) tt 1%float /\
   (0x1p-600 =? 0)%float = false /\
   float_pow 0x1p-600%float 2 = checked_square 0x1p-600 /\
   exists h,
     binary_op Div (Linear 1) (py_Differentiable (Linear 1)) tt = (tt, inr h) /\
     derivative h 0x1p-600 tt = (tt, inl ZeroDivisionError)) /\
  (returns (value (Linear 1) 0x1p600) tt 0x1p600%float /\
   returns (derivative (Linear 1) 0x1p600) tt 1%float /\
   (0x1p600 =? 0)%float = false /\
   float_pow 0x1p600%float 2 = checked_square 0x1p600 /\
   exists h,
     binary_op Div (Linear 1) (py_Differentiable (Linear 1)) tt = (tt, inr h) /\
     derivative h 0x1p600 tt = (tt, inl OverflowError)).
Proof.
  split; repeat (split; [reflexivity|]); eexists; split; reflexivity.
Qed.

(** C9 as stated fails: with the int [10], [10 - Linear(2.0)] and
    [Linear(2.0) - 10] raise KeyError where they are written and build
    nothing. *)
Lemma int_subtraction_rejected :
  reflected_binary_op Sub (py_int 10) (Linear 2) tt = (tt, inl (KeyError t_int)) /\
  binary_op Sub (Linear 2) (py_int 10) tt = (tt, inl (KeyError t_int)) /\
  ~ (exists h, reflected_binary_op Sub (py_int 10) (Linear 2) tt = (tt, inr h)) /\
  ~ (exists h, binary_op Sub (Linear 2) (py_int 10) tt = (tt, inr h)).
Proof.
  split; [reflexivity|]. split; [reflexivity|].
  split; intros [h Hh]; discriminate Hh.
Qed.

End Stateless.

Section Logging.

#[local] Existing Instance logging.

(** [f * g] for [f(x) = 3 x] and [g(x) = 2 x] at [x = 5], every call
    logged: the log (most recent call first) shows the order of the calls. *)
Lemma product_rule_in_order_witness :
  exists h : Differentiable,
    binary_op Mult (logged "f" (Linear 3)) (py_Differentiable (logged "g" (Linear 2))) []
      = ([], inr h) /\
    value h 5 [] = (["f.value"; "g.value"]%string, inr 150%float) /\
    derivative h 5 []
      = (["g.value"; "f.derivative"; "f.value"; "g.derivative"]%string, inr 60%float).
Proof.
  destruct (@product_rule_in_order logging (logged "f" (Linear 3))
              (logged "g" (Linear 2)) 5%float) as (h & Hh & Hv & Hd).
  exists h. split; [apply Hh|]. split.
  - apply (Hv [] ["g.value"%string] ["f.value"; "g.value"]%string 15%float 10%float);
      reflexivity.
  - apply (Hd [] ["g.derivative"%string] ["f.value"; "g.derivative"]%string
             ["f.derivative"; "f.value"; "g.derivative"]%string
             ["g.value"; "f.derivative"; "f.value"; "g.derivative"]%string
             15%float 3%float 10%float 2%float); reflexivity.
Defined.

End Logging.

(** * Further properties of the module *)

(** ** More facts about binary64 arithmetic *)

Lemma float_sub_zero (a : float) : (a - 0)%float = a.
Proof.
  apply Prim2SF_inj. rewrite sub_spec, zero_is_zero_false.
  destruct (Prim2SF a) as [s|s| |s m e]; try reflexivity.
  now destruct s.
Qed.

Lemma float_add_zero (a : float) :
  (a =? a)%float = true -> (a + 0 =? a)%float = true.
Proof.
  rewrite !FloatAxioms.eqb_spec, add_spec, zero_is_zero_false.
  destruct (Prim2SF a) as [s|s| |s m e]; cbn; try (intros Ha; exact Ha).
  now destruct s.
Qed.

Lemma SFsqrt_not_negative (x : spec_float) :
  SFltb (SFsqrt prec emax x) (S754_zero false) = false.
Proof.
  destruct x as [s|s| |s m e]; try reflexivity.
  - now destruct s.
  - destruct s; [reflexivity|]. unfold SFsqrt.
    destruct (SFsqrt_core_binary prec emax (Z.pos m) e) as [[mz ez] lz].
    unfold binary_round_aux.
    destruct (shr_fexp prec emax mz ez lz) as [mrs' e'].
    destruct (shr_fexp prec emax _ e' loc_Exact) as [mrs'' e''].
    destruct (shr_m mrs''); try reflexivity.
    now destruct (e'' <=? emax - prec)%Z.
Qed.

Lemma sqrt_not_negative (v : float) : (sqrt v <? 0)%float = false.
Proof.
  rewrite ltb_spec, sqrt_spec, zero_is_zero_false. apply SFsqrt_not_negative.
Qed.

Section Further.

Context `{Host}.

(** ** Sum and difference of two functions *)

(** X1. [f + g] is a composite whose value is [f(x) + g(x)] and whose
    derivative is [f'(x) + g'(x)]; each evaluation calls [f]'s mapping, then
    [g]'s. *)
Theorem sum_rule (f g : Differentiable) (x : float) :
  exists h,
    (forall w0, binary_op Add f (py_Differentiable g) w0 = (w0, inr h)) /\
    (forall (w0 w1 w2 : World) (a b : float),
       value f x w0 = (w1, inr a) -> value g x w1 = (w2, inr b) ->
       value h x w0 = (w2, inr (a + b)%float)) /\
    (forall (w0 w1 w2 : World) (a' b' : float),
       derivative f x w0 = (w1, inr a') -> derivative g x w1 = (w2, inr b') ->
       derivative h x w0 = (w2, inr (a' + b')%float)).
Proof.
  exists (__call__ f (_AddDifferentiable (py_Differentiable g))).
  split; [reflexivity|]. split.
  - intros w0 w1 w2 a b Hf Hg. open_composite. call Hf. call Hg. reflexivity.
  - intros w0 w1 w2 a' b' Hf' Hg'. open_composite. call Hf'. call Hg'. reflexivity.
Qed.

(** X2. [f - g] is a composite whose value is [f(x) - g(x)] and whose
    derivative is [f'(x) - g'(x)]; each evaluation calls [f]'s mapping, then
    [g]'s. *)
Theorem difference_rule (f g : Differentiable) (x : float) :
  exists h,
    (forall w0, binary_op Sub f (py_Differentiable g) w0 = (w0, inr h)) /\
    (forall (w0 w1 w2 : World) (a b : float),
       value f x w0 = (w1, inr a) -> value g x w1 = (w2, inr b) ->
       value h x w0 = (w2, inr (a - b)%float)) /\
    (forall (w0 w1 w2 : World) (a' b' : float),
       derivative f x w0 = (w1, inr a') -> derivative g x w1 = (w2, inr b') ->
       derivative h x w0 = (w2, inr (a' - b')%float)).
Proof.
  exists (__call__ f (_SubDifferentiable (py_Differentiable g))).
  split; [reflexivity|]. split.
  - intros w0 w1 w2 a b Hf Hg. open_composite. call Hf. call Hg. reflexivity.
  - intros w0 w1 w2 a' b' Hf' Hg'. open_composite. call Hf'. call Hg'. reflexivity.
Qed.

(** X3. The reflected subtraction hook called with a Differentiable [g],
    [f.__rsub__(g)], builds the composite that [f.__sub__(g)] builds: its
    value is the receiver's value minus the operand's, [f(x) - g(x)], not
    [g(x) - f(x)]. *)
Theorem reflected_subtraction_of_functions (f g : Differentiable) (x : float) :
  Differentiable_method __rsub__ = Some _rsub_operator /\
  exists h,
    (forall w0, _rsub_operator f (py_Differentiable g) w0 = (w0, inr h) /\
                _sub_operator f (py_Differentiable g) w0 = (w0, inr h)) /\
    (forall (w0 w1 w2 : World) (a b : float),
       value f x w0 = (w1, inr a) -> value g x w1 = (w2, inr b) ->
       value h x w0 = (w2, inr (a - b)%float)) /\
    (forall (w0 w1 w2 : World) (a' b' : float),
       derivative f x w0 = (w1, inr a') -> derivative g x w1 = (w2, inr b') ->
       derivative h x w0 = (w2, inr (a' - b')%float)).
Proof.
  split; [reflexivity|].
  exists (__call__ f (_SubDifferentiable (py_Differentiable g))).
  split; [intros w0; split; reflexivity|]. split.
  - intros w0 w1 w2 a b Hf Hg. open_composite. call Hf. call Hg. reflexivity.
  - intros w0 w1 w2 a' b' Hf' Hg'. open_composite. call Hf'. call Hg'. reflexivity.
Qed.

(** ** Failures of the operands *)



(** ** Square roots *)

(** X5. What [Sqrt(f).value(x)] returns is never negative, so a square
    root of a square root has no domain error of its own: where
    [Sqrt(f).value(x)] returns [r], [Sqrt(Sqrt(f)).value(x)] returns
    [sqrt r]. *)
Theorem Sqrt_of_Sqrt_value (f : Differentiable) (x : float) (w w' : World) (r : float) :
  value (Sqrt f) x w = (w', inr r) ->
  (r <? 0)%float = false /\
  value (Sqrt (Sqrt f)) x w = (w', inr (sqrt r)).
Proof.
  intros Hr.
  assert (Hnn : (r <? 0)%float = false).
  { cbn [value Sqrt] in Hr. unfold bind in Hr.
    destruct (value f x w) as [w1 [e|v]]; [discriminate|].
    unfold math_sqrt in Hr. destruct (v <? 0)%float; [discriminate|].
    unfold ret in Hr. injection Hr as _ <-. apply sqrt_not_negative. }
  split; [exact Hnn|].
  change (value (Sqrt (Sqrt f)) x w)
    with ((v <- value (Sqrt f) x ;; math_sqrt v) w).
  call Hr. unfold math_sqrt. now rewrite Hnn.
Qed.

(** X6. [Sqrt(f).derivative(x)] calls [f.derivative], then [f.value]; a
    failure of [f.derivative] stops it before [f.value] is called.  Where
    they return [d] and [v] it raises ValueError if [v < 0], raises
    ZeroDivisionError if [sqrt v] is zero, and returns
    [0.5 * d / sqrt v] otherwise. *)
Theorem Sqrt_derivative_cases (f : Differentiable) (x : float) (w0 w1 : World) :
  (forall e, derivative f x w0 = (w1, inl e) ->
     derivative (Sqrt f) x w0 = (w1, inl e)) /\
  (forall (w2 : World) (d v : float),
     derivative f x w0 = (w1, inr d) -> value f x w1 = (w2, inr v) ->
     derivative (Sqrt f) x w0 =
       (w2, if (v <? 0)%float then inl ValueError
            else if (sqrt v =? 0)%float then inl ZeroDivisionError
            else inr (0.5 * d / sqrt v)%float)).
Proof.
  split.
  - intros e Hd. open_composite. now call Hd.
  - intros w2 d v Hd Hv. open_composite. call Hd. call Hv.
    unfold math_sqrt, float_truediv, bind, raise, ret.
    destruct (v <? 0)%float; [reflexivity|]. now destruct (sqrt v =? 0)%float.
Qed.

(** ** A constant function as operand *)

(** X7. Combining with the function [Constant(c)] agrees with combining with
    the float [c]: for [+], [-] and [*] the value mappings have the same
    outcome at every point and in every world, and so have the derivative
    mappings for [-]; the derivative of [f + Constant(c)] is [f'(x) + 0],
    equal to [f'(x)] under [==] unless [f'(x)] is NaN. *)
Theorem Constant_operand_agrees_with_scalar (f : Differentiable) (c : float) :
  exists ha hs hm ka ks km,
    (forall w0,
       binary_op Add f (py_Differentiable (Constant c)) w0 = (w0, inr ha) /\
       binary_op Sub f (py_Differentiable (Constant c)) w0 = (w0, inr hs) /\
       binary_op Mult f (py_Differentiable (Constant c)) w0 = (w0, inr hm) /\
       binary_op Add f (py_float c) w0 = (w0, inr ka) /\
       binary_op Sub f (py_float c) w0 = (w0, inr ks) /\
       binary_op Mult f (py_float c) w0 = (w0, inr km)) /\
    (forall x w,
       value ha x w = value ka x w /\
       value hs x w = value ks x w /\
       value hm x w = value km x w /\
       derivative hs x w = derivative ks x w) /\
    (forall x w w' a', derivative f x w = (w', inr a') ->
       derivative ha x w = (w', inr (a' + 0)%float) /\
       derivative ka x w = (w', inr a') /\
       ((a' =? a')%float = true -> (a' + 0 =? a')%float = true)).
Proof.
  exists (__call__ f (_AddDifferentiable (py_Differentiable (Constant c)))),
    (__call__ f (_SubDifferentiable (py_Differentiable (Constant c)))),
    (__call__ f (_MultiplyDifferentiable (py_Differentiable (Constant c)))),
    (__call__ f (_AddConstant c)), (__call__ f (_SubConstant c)),
    (__call__ f (_ScaleDifferentiable c)).
  split; [intros w0; repeat (split; [reflexivity|]); reflexivity|]. split.
  - intros x w. open_composite.
    unfold other_value, other_derivative, getattr_value, getattr_derivative,
      bind, ret; cbn [value derivative Constant].
    split; [|split; [|split]]; cbn.
    + now destruct (value f x w) as [w' [e|a]].
    + now destruct (value f x w) as [w' [e|a]].
    + now destruct (value f x w) as [w' [e|a]].
    + destruct (derivative f x w) as [w' [e|a']]; [reflexivity|].
      now rewrite float_sub_zero.
  - intros x w w' a' Hf'. split; [|split].
    + open_composite. call Hf'.
      unfold other_derivative, getattr_derivative, bind, ret. reflexivity.
    + exact Hf'.
    + apply float_add_zero.
Qed.

(** ** The quotient, call by call *)

(** X10. Nothing is cached in a quotient either.  The value of [f / g]
    calls [f.value], then [g.value]; its derivative calls [f.derivative],
    [g.value], [g.derivative], [f.value] and [g.value] a second time, the
    numerator being computed from the first value of [g] and the denominator
    from the second. *)
Theorem quotient_call_by_call (f g : Differentiable) (x : float) :
  exists h,
    (forall w0, binary_op Div f (py_Differentiable g) w0 = (w0, inr h)) /\
    (forall (w0 w1 w2 : World) (a b : float),
       value f x w0 = (w1, inr a) -> value g x w1 = (w2, inr b) ->
       value h x w0 = float_truediv a b w2) /\
    (forall (w0 w1 w2 w3 w4 w5 : World) (a a' b b' b2 : float),
       derivative f x w0 = (w1, inr a') -> value g x w1 = (w2, inr b) ->
       derivative g x w2 = (w3, inr b') -> value f x w3 = (w4, inr a) ->
       value g x w4 = (w5, inr b2) ->
       derivative h x w0 =
         (p <- lift (float_pow b2 2) ;; float_truediv (a' * b - b' * a)%float p) w5).
Proof.
  exists (__call__ f (_TrueDivDifferentiable (py_Differentiable g))).
  split; [reflexivity|]. split.
  - intros w0 w1 w2 a b Hf Hg. open_composite. call Hf. now call Hg.
  - intros w0 w1 w2 w3 w4 w5 a a' b b' b2 Hf' Hg Hg' Hf Hg2. open_composite.
    call Hf'. call Hg. call Hg'. call Hf. now call Hg2.
Qed.

End Further.

Section ChainRule.

Context `{Host}.

Variables math_sin math_cos : float -> exn + float.

Lemma Sin_value_run (f : Differentiable) (x : float) (w0 w1 : World)
    (v : float) :
  value f x w0 = (w1, inr v) ->
  value (Sin math_sin math_cos f) x w0 = (w1, math_sin v).
Proof. intros Hv. cbn [value Sin]. now call Hv. Qed.

(** X8. [Sin(f)] and [Cos(f)] call [f.value] first.  Their values are
    [math.sin] and [math.cos] of what it returns; the derivative of [Sin(f)]
    is [cos(f(x)) * f'(x)] and that of [Cos(f)] is [- sin(f(x)) * f'(x)],
    with [f.derivative] called after the library function; when the library
    function raises, the derivative raises its exception and [f.derivative]
    is not called. *)
Theorem Sin_Cos_chain_rule (f : Differentiable) (x : float) (w0 w1 : World) (v : float) :
  value f x w0 = (w1, inr v) ->
  value (Sin math_sin math_cos f) x w0 = (w1, math_sin v) /\
  value (Cos math_sin math_cos f) x w0 = (w1, math_cos v) /\
  (forall w2 d c, math_cos v = inr c -> derivative f x w1 = (w2, inr d) ->
     derivative (Sin math_sin math_cos f) x w0 = (w2, inr (c * d)%float)) /\
  (forall w2 d s, math_sin v = inr s -> derivative f x w1 = (w2, inr d) ->
     derivative (Cos math_sin math_cos f) x w0 = (w2, inr (- s * d)%float)) /\
  (forall e, math_cos v = inl e ->
     derivative (Sin math_sin math_cos f) x w0 = (w1, inl e)) /\
  (forall e, math_sin v = inl e ->
     derivative (Cos math_sin math_cos f) x w0 = (w1, inl e)).
Proof.
  intros Hv. repeat apply conj; cbn [value derivative Sin Cos].
  - now call Hv.
  - now call Hv.
  - intros w2 d c Hc Hd. call Hv. rewrite bind_lift, Hc. now call Hd.
  - intros w2 d s Hs Hd. call Hv. rewrite bind_lift, Hs. now call Hd.
  - intros e Hc. call Hv. now rewrite bind_lift, Hc.
  - intros e Hs. call Hv. now rewrite bind_lift, Hs.
Qed.

(** X9. Nothing is cached: the derivative of [Cos(Sin(f))] calls [f.value]
    twice, once for the value of [Sin(f)] and once for its derivative, then
    [f.derivative] once, and returns
    [- sin(sin(f(x))) * (cos(f(x)) * f'(x))]. *)
Theorem Cos_of_Sin_derivative (f : Differentiable) (x : float)
    (w0 w1 w2 w3 : World) (v v2 d s1 s2 c : float) :
  value f x w0 = (w1, inr v) -> math_sin v = inr s1 -> math_sin s1 = inr s2 ->
  value f x w1 = (w2, inr v2) -> math_cos v2 = inr c ->
  derivative f x w2 = (w3, inr d) ->
  derivative (Cos math_sin math_cos (Sin math_sin math_cos f)) x w0
  = (w3, inr (- s2 * (c * d))%float).
Proof.
  intros Hv Hs1 Hs2 Hv2 Hc Hd.
  assert (Hinner : value (Sin math_sin math_cos f) x w0 = (w1, inr s1)).
  { rewrite <- Hs1. now apply (Sin_value_run f x w0 w1 v). }
  assert (Hinner' : derivative (Sin math_sin math_cos f) x w1
                    = (w3, inr (c * d)%float)).
  { cbn [derivative Sin]. call Hv2. rewrite bind_lift, Hc. now call Hd. }
  change (derivative (Cos math_sin math_cos (Sin math_sin math_cos f)) x w0)
    with ((u <- value (Sin math_sin math_cos f) x ;;
           s <- lift (math_sin u) ;;
           d' <- derivative (Sin math_sin math_cos f) x ;;
           ret (- s * d')%float) w0).
  call Hinner. rewrite bind_lift, Hs2. now call Hinner'.
Qed.

End ChainRule.

(** ** The further properties at concrete inputs *)

Section FurtherStateless.

#[local] Existing Instance stateless.

(** [Linear(1.5) + Constant(2.0)] at [x = 3]. *)
Lemma sum_rule_witness :
  exists h : Differentiable,
    binary_op Add (Linear 1.5) (py_Differentiable (Constant 2)) tt = (tt, inr h) /\
    value h 3 tt = (tt, inr 6.5%float) /\
    derivative h 3 tt = (tt, inr 1.5%float).
Proof.
  destruct (@sum_rule stateless (Linear 1.5) (Constant 2) 3%float)
    as (h & Hh & Hv & Hd).
  exists h. split; [apply Hh|]. split.
  - apply (Hv tt tt tt 4.5%float 2%float); reflexivity.
  - apply (Hd tt tt tt 1.5%float 0%float); reflexivity.
Defined.

(** [Linear(5.0) - Linear(2.0)] at [x = 7]. *)
Lemma difference_rule_witness :
  exists h : Differentiable,
    binary_op Sub (Linear 5) (py_Differentiable (Linear 2)) tt = (tt, inr h) /\
    value h 7 tt = (tt, inr 21%float) /\
    derivative h 7 tt = (tt, inr 3%float).
Proof.
  destruct (@difference_rule stateless (Linear 5) (Linear 2) 7%float)
    as (h & Hh & Hv & Hd).
  exists h. split; [apply Hh|]. split.
  - apply (Hv tt tt tt 35%float 14%float); reflexivity.
  - apply (Hd tt tt tt 5%float 2%float); reflexivity.
Defined.

(** [Linear(5.0).__rsub__(Linear(2.0))] at [x = 7]: [35 - 14], not
    [14 - 35]. *)
Lemma reflected_subtraction_of_functions_witness :
  exists h : Differentiable,
    _rsub_operator (Linear 5) (py_Differentiable (Linear 2)) tt = (tt, inr h) /\
    value h 7 tt = (tt, inr 21%float) /\
    derivative h 7 tt = (tt, inr 3%float).
Proof.
  destruct (@reflected_subtraction_of_functions stateless (Linear 5) (Linear 2) 7%float)
    as (_ & h & Hh & Hv & Hd).
  exists h. split; [apply Hh|]. split.
  - apply (Hv tt tt tt 35%float 14%float); reflexivity.
  - apply (Hd tt tt tt 5%float 2%float); reflexivity.
Defined.


(** [Sqrt(Sqrt(Constant(16.0)))]. *)
Lemma Sqrt_of_Sqrt_value_witness :
  value (Sqrt (Sqrt (Constant 16))) 0 tt = (tt, inr 2%float).
Proof.
  exact (proj2 (@Sqrt_of_Sqrt_value stateless (Constant 16) 0%float tt tt 4%float
                  eq_refl)).
Defined.

(** [Sqrt] of [x * x] at [x = 3], and [Sqrt(Constant(-1.0))]. *)
Lemma Sqrt_derivative_cases_witness :
  derivative (Sqrt square) 3 tt = (tt, inr 1%float) /\
  derivative (Sqrt (Constant (-1))) 3 tt = (tt, inl ValueError).
Proof.
  split.
  - exact (proj2 (@Sqrt_derivative_cases stateless square 3%float tt tt)
             tt 6%float 9%float eq_refl eq_refl).
  - exact (proj2 (@Sqrt_derivative_cases stateless (Constant (-1)) 3%float tt tt)
             tt 0%float (-1)%float eq_refl eq_refl).
Defined.

(** [Linear(3.0) + Constant(2.0)] against [Linear(3.0) + 2.0] at [x = 1]. *)
Lemma Constant_operand_agrees_with_scalar_witness :
  exists ha ka : Differentiable,
    binary_op Add (Linear 3) (py_Differentiable (Constant 2)) tt = (tt, inr ha) /\
    binary_op Add (Linear 3) (py_float 2) tt = (tt, inr ka) /\
    value ha 1 tt = value ka 1 tt /\
    derivative ha 1 tt = (tt, inr (3 + 0)%float) /\
    derivative ka 1 tt = (tt, inr 3%float) /\
    (3 + 0 =? 3)%float = true.
Proof.
  destruct (@Constant_operand_agrees_with_scalar stateless (Linear 3) 2%float)
    as (ha & hs & hm & ka & ks & km & Hh & Hv & Hd).
  exists ha, ka.
  destruct (Hh tt) as (Ha & _ & _ & Hk & _).
  destruct (Hv 1%float tt) as (Hva & _).
  destruct (Hd 1%float tt tt 3%float eq_refl) as (Hda & Hdk & Heq).
  split; [exact Ha|]. split; [exact Hk|]. split; [exact Hva|].
  split; [exact Hda|]. split; [exact Hdk|]. exact (Heq eq_refl).
Defined.

(** [Sin(Linear(1.0))] and [Cos(Linear(1.0))] at [x = 0], with the Taylor
    stand-ins. *)
Lemma Sin_Cos_chain_rule_witness :
  value (Sin taylor_sin taylor_cos (Linear 1)) 0 tt = (tt, inr 0%float) /\
  value (Cos taylor_sin taylor_cos (Linear 1)) 0 tt = (tt, inr 1%float) /\
  derivative (Sin taylor_sin taylor_cos (Linear 1)) 0 tt = (tt, inr 1%float) /\
  derivative (Cos taylor_sin taylor_cos (Linear 1)) 0 tt = (tt, inr (-0)%float).
Proof.
  destruct (@Sin_Cos_chain_rule stateless taylor_sin taylor_cos (Linear 1)
              0%float tt tt 0%float eq_refl) as (Hs & Hc & Hds & Hdc & _).
  split; [exact Hs|]. split; [exact Hc|]. split.
  - exact (Hds tt 1%float 1%float eq_refl eq_refl).
  - exact (Hdc tt 1%float 0%float eq_refl eq_refl).
Defined.

End FurtherStateless.

Section FurtherLogging.

#[local] Existing Instance logging.

(** [Cos(Sin(f))] for [f(x) = x] at [x = 0], every call of [f] logged. *)
Lemma Cos_of_Sin_derivative_witness :
  derivative (Cos taylor_sin taylor_cos
                (Sin taylor_sin taylor_cos (logged "f" (Linear 1)))) 0 []
  = (["f.derivative"; "f.value"; "f.value"]%string, inr (-0)%float).
Proof.
  exact (@Cos_of_Sin_derivative logging taylor_sin taylor_cos
           (logged "f" (Linear 1)) 0%float
           [] ["f.value"%string] ["f.value"; "f.value"]%string
           ["f.derivative"; "f.value"; "f.value"]%string
           0%float 0%float 1%float 0%float 0%float 1%float
           eq_refl eq_refl eq_refl eq_refl eq_refl eq_refl).
Defined.

(** [f / g] for [f(x) = 6 x] and [g(x) = 3] at [x = 10], every call
    logged. *)
Lemma quotient_call_by_call_witness :
  exists h : Differentiable,
    binary_op Div (logged "f" (Linear 6)) (py_Differentiable (logged "g" (Constant 3))) []
      = ([], inr h) /\
    value h 10 [] = (["g.value"; "f.value"]%string, inr 20%float) /\
    derivative h 10 []
      = (["g.value"; "f.value"; "g.derivative"; "g.value"; "f.derivative"]%string,
         inr 2%float).
Proof.
  destruct (@quotient_call_by_call logging (logged "f" (Linear 6))
              (logged "g" (Constant 3)) 10%float) as (h & Hh & Hv & Hd).
  exists h. split; [apply Hh|]. split.
  - apply (Hv [] ["f.value"%string] ["g.value"; "f.value"]%string 60%float 3%float);
      reflexivity.
  - apply (Hd [] ["f.derivative"%string] ["g.value"; "f.derivative"]%string
             ["g.derivative"; "g.value"; "f.derivative"]%string
             ["f.value"; "g.derivative"; "g.value"; "f.derivative"]%string
             ["g.value"; "f.value"; "g.derivative"; "g.value"; "f.derivative"]%string
             60%float 6%float 3%float 0%float 3%float); reflexivity.
Defined.

End FurtherLogging.
